(** * XenomaiLock: the dual-domain mutex and condition variable

    A shallow embedding of [common/XenomaiLock.cpp].  The file wraps the
    Cobalt (Xenomai) pthread services: every operation is first tried as
    it is, and when the service answers [EPERM] (the calling thread is not
    a Cobalt thread yet) the thread is turned into a Cobalt thread and the
    operation is tried once more.

    The C++ code is sequential and talks to the outside world only through
    library calls.  It is modelled in a small monad that threads the state
    of the outside world (the "kernel": libcobalt, libc and the Xenomai
    core) and logs every call made together with the answer received. *)

From Stdlib Require Import ZArith List String Bool Lia.
Import ListNotations.
Local Open Scope Z_scope.

(** ** Library calls made by the code *)

(** [&mutex] and [&cond]: the address of the native object that a wrapper
    owns. *)
Definition handle := Z.

(** [EPERM] of <errno.h> on Linux. *)
Definition EPERM : Z := 1.

(** The Cobalt pthread services, [__wrap_pthread_*] in the source, with
    the handles they are given (the attribute argument is always [NULL]). *)
Inductive Service : Type :=
| mutex_init (m : handle)
| mutex_destroy (m : handle)
| mutex_trylock (m : handle)
| mutex_lock (m : handle)
| mutex_unlock (m : handle)
| cond_init (c : handle)
| cond_destroy (c : handle)
| cond_wait (c : handle) (m : handle)
| cond_signal (c : handle)
| cond_broadcast (c : handle).

(** Every function of libc, libcobalt and Xenomai that the file calls,
    with the arguments the code passes. *)
Inductive Call : Type :=
| cobalt_thread_mode
| pthread_self
| pthread_getschedparam (thread : Z)
| gettid                                      (* syscall(SYS_gettid) *)
| sched_setscheduler (tid policy param : Z)   (* __wrap_sched_setscheduler *)
| xenomai_init (argc : Z) (argv : list string)
| fprintf_stderr (format : string) (args : list Z)
| wrap_pthread (s : Service).

Abbreviation pthread_mutex_init m := (wrap_pthread (mutex_init m)).
Abbreviation pthread_mutex_destroy m := (wrap_pthread (mutex_destroy m)).
Abbreviation pthread_mutex_trylock m := (wrap_pthread (mutex_trylock m)).
Abbreviation pthread_mutex_lock m := (wrap_pthread (mutex_lock m)).
Abbreviation pthread_mutex_unlock m := (wrap_pthread (mutex_unlock m)).
Abbreviation pthread_cond_init c := (wrap_pthread (cond_init c)).
Abbreviation pthread_cond_destroy c := (wrap_pthread (cond_destroy c)).
Abbreviation pthread_cond_wait c m := (wrap_pthread (cond_wait c m)).
Abbreviation pthread_cond_signal c := (wrap_pthread (cond_signal c)).
Abbreviation pthread_cond_broadcast c := (wrap_pthread (cond_broadcast c)).

(** What a call hands back.  [pthread_getschedparam] returns its status
    and leaves the policy and the [sched_priority] of [param] in the two
    variables the code passes by address; [xenomai_init] is [void]; all
    the others return an [int]. *)
Definition Resp (c : Call) : Type :=
  match c with
  | pthread_getschedparam _ => (Z * Z * Z)%type
  | xenomai_init _ _ => unit
  | _ => Z
  end.

(** One entry of the log: a call with the answer it received, or the
    entry into [turn_into_cobalt_thread] (a marker that lets invocations
    of that function be told apart from the calls it makes). *)
Inductive Event : Type :=
| Native (c : Call) (r : Resp c)
| Enter_turn_into_cobalt_thread (recurred : bool).

Definition service_eqb (a b : Service) : bool :=
  match a, b with
  | mutex_init m, mutex_init m' => m =? m'
  | mutex_destroy m, mutex_destroy m' => m =? m'
  | mutex_trylock m, mutex_trylock m' => m =? m'
  | mutex_lock m, mutex_lock m' => m =? m'
  | mutex_unlock m, mutex_unlock m' => m =? m'
  | cond_init c, cond_init c' => c =? c'
  | cond_destroy c, cond_destroy c' => c =? c'
  | cond_wait c m, cond_wait c' m' => (c =? c') && (m =? m')
  | cond_signal c, cond_signal c' => c =? c'
  | cond_broadcast c, cond_broadcast c' => c =? c'
  | _, _ => false
  end.

(** Is the log entry a call of the service [s]? *)
Definition is_service (s : Service) (e : Event) : bool :=
  match e with
  | Native (wrap_pthread s') _ => service_eqb s s'
  | _ => false
  end.

(** Is the log entry a call of any Cobalt pthread service? *)
Definition is_pthread (e : Event) : bool :=
  match e with
  | Native (wrap_pthread _) _ => true
  | _ => false
  end.

(** Is the log entry an invocation of [turn_into_cobalt_thread] from
    outside, that is, one with [recurred = false]? *)
Definition is_promotion (e : Event) : bool :=
  match e with
  | Enter_turn_into_cobalt_thread false => true
  | _ => false
  end.

Definition count (p : Event -> bool) (t : list Event) : nat :=
  List.length (filter p t).

(** What a promotion did, as far as the retry protocol goes: the answers
    of the scheduler-set calls and the initialisations of Xenomai, in the
    order in which they happened. *)
Inductive Step : Type :=
| Sched (answer : Z)
| Init.

Fixpoint promotion_steps (t : list Event) : list Step :=
  match t with
  | [] => []
  | Native (sched_setscheduler _ _ _) r :: t' => Sched r :: promotion_steps t'
  | Native (xenomai_init _ _) _ :: t' => Init :: promotion_steps t'
  | _ :: t' => promotion_steps t'
  end.

(** The answers of the scheduler-set calls among the steps. *)
Definition sched_answers (l : list Step) : list Z :=
  flat_map (fun s => match s with Sched a => [a] | Init => [] end) l.

(** The number of initialisations of Xenomai among the steps. *)
Definition initializations (l : list Step) : nat :=
  List.length (filter (fun s => match s with Init => true | _ => false end) l).

(** ** The objects *)

(** [class XenomaiMutex]: the native mutex (by its address) and the
    flag. *)
Record XenomaiMutex : Type := {
  mutex : handle;
  enabled : bool
}.

(** [class XenomaiConditionVariable]; its flag is called [enabled] too. *)
Record XenomaiConditionVariable : Type := {
  cond : handle;
  cv_enabled : bool
}.

(** [std::unique_lock<XenomaiMutex>], as far as [wait] looks at it:
    [lck.mutex()] is the mutex it is associated with. *)
Record unique_lock : Type := {
  lck_mutex : XenomaiMutex
}.

(** Modelled from the spec: the initial value of the member [enabled],
    which is declared in XenomaiLock.h (not among the sources).  The
    constructors only ever assign [true]; the spec says that on failure
    they "leave [enabled=false]". *)
Definition enabled_initially : bool := false.

(** The conversion of a [bool] to [int], as in [return false;] of a
    function that returns [int]. *)
Definition int_of_bool (b : bool) : Z := if b then 1 else 0.

(** ** Reading a log *)

(** The answer of the service [s], when the log entry is a call of it. *)
Definition service_answer (s : Service) (e : Event) : option Z :=
  match e with
  | Native (wrap_pthread s') r =>
      if service_eqb s s' then Some r else None
  | _ => None
  end.

(** The last entry of a log. *)
Definition last_event (t : list Event) : option Event := hd_error (rev t).

(** What the thread was told about itself before a scheduler-set call:
    the answers of [cobalt_thread_mode], [pthread_self],
    [pthread_getschedparam] (status, policy, priority) and [gettid]. *)
Record Queries : Type := {
  q_mode : Z;
  q_thread : Z;
  q_status : Z;
  q_policy : Z;
  q_param : Z;
  q_tid : Z
}.

(** The log of one pass through [turn_into_cobalt_thread] up to the
    scheduler-set call and its answer. *)
Definition attempt_events (recurred : bool) (q : Queries) (answer : Z)
    : list Event :=
  [Enter_turn_into_cobalt_thread recurred;
   Native cobalt_thread_mode (q_mode q);
   Native pthread_self (q_thread q);
   Native (pthread_getschedparam (q_thread q))
     (q_status q, q_policy q, q_param q);
   Native gettid (q_tid q);
   Native (sched_setscheduler (q_tid q) (q_policy q) (q_param q)) answer].


(** ** Uses of the objects *)

(** One use of a mutex or of a condition variable by a client. *)
Inductive Operation : Type :=
| use_lock (m : XenomaiMutex)
| use_try_lock (m : XenomaiMutex)
| use_unlock (m : XenomaiMutex)
| use_wait (c : XenomaiConditionVariable) (lck : unique_lock)
| use_notify_one (c : XenomaiConditionVariable)
| use_notify_all (c : XenomaiConditionVariable).

(** The flag of the object that an operation is called on. *)
Definition target_enabled (o : Operation) : bool :=
  match o with
  | use_lock m | use_try_lock m | use_unlock m => enabled m
  | use_wait c _ | use_notify_one c | use_notify_all c => cv_enabled c
  end.

(** ** A kernel to run the code on

    The answers of the [int] calls are read off a script, one after the
    other (0 once the script is used up); the scheduling parameters it
    reports are all 0. *)
Definition scripted (c : Call) (k : list Z) : Resp c * list Z :=
  match c return Resp c * list Z with
  | pthread_getschedparam _ => ((hd 0 k, 0, 0), tl k)
  | xenomai_init _ _ => (tt, k)
  | _ => (hd 0 k, tl k)
  end.

(** The answers a failed promotion consumes: thread mode, [pthread_self],
    [pthread_getschedparam], [gettid], a scheduler-set call that answers
    [EPERM] and the [fprintf] of the warning, all of that twice. *)
Definition failing_promotion : list Z :=
  [0; 7; 0; 42; 1; 0; 0; 7; 0; 42; 1; 0].

(** ** The monad of the embedding *)

Section XenomaiLock.

(** The outside world: its state, and how it answers a call.  Nothing
    is assumed about either. *)
Variable K : Type.
Variable kernel : forall c : Call, K -> Resp c * K.

(** A computation takes the state of the kernel and yields a value, the
    next state and the log of what it did. *)
Definition M (A : Type) : Type := K -> A * K * list Event.

Definition pure {A} (a : A) : M A := fun k => (a, k, []).

Definition bind {A B} (m : M A) (f : A -> M B) : M B :=
  fun k =>
    let '(a, k1, t1) := m k in
    let '(b, k2, t2) := f a k1 in
    (b, k2, t1 ++ t2).

Definition call (c : Call) : M (Resp c) :=
  fun k => let '(r, k') := kernel c k in (r, k', [Native c r]).

Definition mark (e : Event) : M unit := fun k => (tt, k, [e]).

Notation "x <- m ;; f" := (bind m (fun x => f))
  (at level 61, m at next level, right associativity).
Notation "m ;;; f" := (bind m (fun _ => f))
  (at level 61, right associativity).

Definition result {A} (r : A * K * list Event) : A := fst (fst r).
Definition log {A} (r : A * K * list Event) : list Event := snd r.

(** ** [initialize_xenomai] *)

(** [xprintf] and [xfprintf] expand to nothing ([PRINT_XENO_LOCK] is not
    defined), so they leave no trace here and [traceOpt] is the empty
    string. *)
Definition initialize_xenomai : M unit :=
  let argc := 2 in
  let blankOpt := EmptyString in
  let traceOpt := EmptyString in
  let argv := [blankOpt; traceOpt; blankOpt] in
  call (xenomai_init argc argv).

(** ** [turn_into_cobalt_thread] *)

(** The body of the function, with the function itself as [self] where
    the body calls it. The [ret] of the [if] shadows the outer one, so
    the diagnostic prints the answer of the scheduler-set call
    (negated); [strerror] is a pure lookup and is left out. *)
Definition turn_into_cobalt_thread_body
    (self : bool -> M Z) (recurred : bool) : M Z :=
  mark (Enter_turn_into_cobalt_thread recurred) ;;;
  current_mode <- call cobalt_thread_mode ;;
  thread <- call pthread_self ;;
  got <- call (pthread_getschedparam thread) ;;
  let '(ret0, policy, param) := got in
  tid <- call gettid ;;
  ret <- call (sched_setscheduler tid policy param) ;;
  if negb (ret =? 0) then
    call (fprintf_stderr
      "Warning: unable to turn current thread into a Xenomai thread : (%d) %s\n"
      [- ret]) ;;;
    initialize_xenomai ;;;
    if negb recurred then self true else pure (-1)
  else
    pure 0.

(** The function calls itself only from a call with [recurred = false],
    and then with [recurred = 1]: two levels of the body are all there
    is.  [turn_into_cobalt_thread_unfold] below shows that this is the
    function of the source, the one that satisfies its recursive
    equation. *)
Definition turn_into_cobalt_thread : bool -> M Z :=
  turn_into_cobalt_thread_body
    (turn_into_cobalt_thread_body (fun _ => pure (-1))).

(** ** [XenomaiInitializer] *)

Definition XenomaiInitializer_ctor : M unit := initialize_xenomai.

(** ** [XenomaiMutex]: construction and destruction *)

(** [this] is the address of the member [mutex]. *)
Definition XenomaiMutex_ctor (this : handle) : M XenomaiMutex :=
  let enabled := enabled_initially in
  first <- call (pthread_mutex_init this) ;;
  if EPERM =? first then
    initialize_xenomai ;;;
    ret <- call (pthread_mutex_init this) ;;
    if negb (ret =? 0) then
      call (fprintf_stderr
        "Error: unable to initialize mutex : (%d) %s\n" [ret]) ;;;
      pure {| mutex := this; enabled := enabled |}
    else
      pure {| mutex := this; enabled := true |}
  else
    pure {| mutex := this; enabled := true |}.

Definition XenomaiMutex_dtor (this : XenomaiMutex) : M unit :=
  if enabled this then
    call (pthread_mutex_destroy (mutex this)) ;;; pure tt
  else
    pure tt.

(** ** [try_or_retry] *)

(** [id] and [name] only feed the debugging output. *)
Definition try_or_retry (func : M Z) (id : handle) (name : string)
    (enabled : bool) : M Z :=
  if negb enabled then
    pure (int_of_bool false)
  else
    ret <- func ;;
    if negb (EPERM =? ret) then
      pure ret
    else
      promoted <- turn_into_cobalt_thread false ;;
      if negb (promoted =? 0) then
        pure EPERM
      else
        ret <- func ;;
        pure ret.

(** ** [XenomaiMutex]: the operations *)

(** The parameter [recurred] of the member functions is not used. *)
Definition try_lock (this : XenomaiMutex) (recurred : bool) : M bool :=
  let name := "try_lock"%string in
  ret <- try_or_retry (call (pthread_mutex_trylock (mutex this)))
           (mutex this) name (enabled this) ;;
  pure (0 =? ret).

Definition lock (this : XenomaiMutex) (recurred : bool) : M unit :=
  let name := "lock"%string in
  try_or_retry (call (pthread_mutex_lock (mutex this)))
    (mutex this) name (enabled this) ;;;
  pure tt.

Definition unlock (this : XenomaiMutex) (recurred : bool) : M unit :=
  let name := "unlock"%string in
  try_or_retry (call (pthread_mutex_unlock (mutex this)))
    (mutex this) name (enabled this) ;;;
  pure tt.

(** ** [XenomaiConditionVariable] *)

Definition XenomaiConditionVariable_ctor (this : handle)
    : M XenomaiConditionVariable :=
  let enabled := enabled_initially in
  ret <- call (pthread_cond_init this) ;;
  if negb (ret =? 0) then
    if EPERM =? ret then
      initialize_xenomai ;;;
      ret <- call (pthread_cond_init this) ;;
      if negb (ret =? 0) then
        call (fprintf_stderr
          "Error: unable to create condition variable : (%d) %s\n" [ret]) ;;;
        pure {| cond := this; cv_enabled := enabled |}
      else
        pure {| cond := this; cv_enabled := enabled |}
    else
      pure {| cond := this; cv_enabled := enabled |}
  else
    pure {| cond := this; cv_enabled := true |}.

Definition wait (this : XenomaiConditionVariable) (lck : unique_lock)
    (recurred : bool) : M unit :=
  let name := "wait"%string in
  try_or_retry
    (call (pthread_cond_wait (cond this) (mutex (lck_mutex lck))))
    (cond this) name (cv_enabled this) ;;;
  pure tt.

Definition notify_one (this : XenomaiConditionVariable) (recurred : bool)
    : M unit :=
  let name := "notify_one"%string in
  try_or_retry (call (pthread_cond_signal (cond this)))
    (cond this) name (cv_enabled this) ;;;
  pure tt.

Definition notify_all (this : XenomaiConditionVariable) (recurred : bool)
    : M unit :=
  let name := "notify_all"%string in
  try_or_retry (call (pthread_cond_broadcast (cond this)))
    (cond this) name (cv_enabled this) ;;;
  pure tt.

(** The destructor calls [notify_all()] without an argument; the
    default of [recurred] is in the header and the parameter is unused
    anyway. *)
Definition XenomaiConditionVariable_dtor (this : XenomaiConditionVariable)
    : M unit :=
  if cv_enabled this then
    notify_all this false ;;;
    call (pthread_cond_destroy (cond this)) ;;;
    pure tt
  else
    pure tt.

(** ** Clients *)

(** A client performs an operation and drops what it returns. *)
Definition perform (o : Operation) : M unit :=
  match o with
  | use_lock m => lock m false
  | use_try_lock m => try_lock m false ;;; pure tt
  | use_unlock m => unlock m false
  | use_wait c lck => wait c lck false
  | use_notify_one c => notify_one c false
  | use_notify_all c => notify_all c false
  end.

(** ... and a sequence of them, one after the other. *)
Fixpoint perform_all (ops : list Operation) : M unit :=
  match ops with
  | [] => pure tt
  | o :: ops' => perform o ;;; perform_all ops'
  end.

(** An object is created and destroyed again. *)
Definition XenomaiMutex_lifetime (this : handle) : M unit :=
  m <- XenomaiMutex_ctor this ;;
  XenomaiMutex_dtor m.

Definition XenomaiConditionVariable_lifetime (this : handle) : M unit :=
  c <- XenomaiConditionVariable_ctor this ;;
  XenomaiConditionVariable_dtor c.

(** ** Running the code by hand *)

(** One step of a symbolic run: name the answer of the next call, or
    split on the next test of an [int]. *)
Ltac answer :=
  match goal with
  | |- context [kernel ?c ?k] =>
      let r := fresh "r" in
      let k' := fresh "k" in
      let E := fresh "E" in
      destruct (kernel c k) as [r k'] eqn:E; cbn [Resp] in r
  | r : (Z * Z * Z)%type |- _ => destruct r as [[? ?] ?]
  | |- context [?a =? ?b] =>
      let T := fresh "T" in destruct (a =? b) eqn:T
  end; cbn -[Z.eqb].

Ltac run := cbv [bind call mark pure initialize_xenomai]; repeat answer.

(** The answers of [void] calls, and what the tests of an [int] say. *)
Ltac units :=
  repeat match goal with u : unit |- _ => destruct u end.

Ltac signs :=
  repeat match goal with
  | H : (_ =? _) = true |- _ => apply Z.eqb_eq in H; subst
  | H : (_ =? _) = false |- _ => apply Z.eqb_neq in H
  end.

Lemma count_app (p : Event -> bool) (t u : list Event) :
  count p (t ++ u) = (count p t + count p u)%nat.
Proof. unfold count. rewrite filter_app, length_app. reflexivity. Qed.

Lemma service_eqb_refl (s : Service) : service_eqb s s = true.
Proof. destruct s; cbn; rewrite ?Z.eqb_refl; reflexivity. Qed.

(** A failed attempt of the inner call ends the function: [self] is not
    called from a call with [recurred = true]. *)
Lemma turn_into_cobalt_thread_body_true (self self' : bool -> M Z) (k : K) :
  turn_into_cobalt_thread_body self true k
  = turn_into_cobalt_thread_body self' true k.
Proof. unfold turn_into_cobalt_thread_body. run; reflexivity. Qed.

(** From a call with [recurred = false], [self] is only called with
    [true]. *)
Lemma turn_into_cobalt_thread_body_ext (self self' : bool -> M Z)
    (recurred : bool) (k : K) :
  (forall k', self true k' = self' true k') ->
  turn_into_cobalt_thread_body self recurred k
  = turn_into_cobalt_thread_body self' recurred k.
Proof.
  intros same. destruct recurred.
  - apply turn_into_cobalt_thread_body_true.
  - unfold turn_into_cobalt_thread_body. run; try reflexivity.
    rewrite same. reflexivity.
Qed.

(** The recursive equation of the source. *)
Lemma turn_into_cobalt_thread_unfold (recurred : bool) (k : K) :
  turn_into_cobalt_thread recurred k
  = turn_into_cobalt_thread_body turn_into_cobalt_thread recurred k.
Proof.
  unfold turn_into_cobalt_thread at 1.
  apply turn_into_cobalt_thread_body_ext. intros k'.
  unfold turn_into_cobalt_thread.
  apply turn_into_cobalt_thread_body_true.
Qed.

(** What one invocation of [turn_into_cobalt_thread] does, by the
    answers of the scheduler-set calls. *)
Lemma turn_into_cobalt_thread_cases (k : K) :
  let r := turn_into_cobalt_thread false k in
  count is_pthread (log r) = 0%nat /\
  count is_promotion (log r) = 1%nat /\
  ((result r = 0 /\ promotion_steps (log r) = [Sched 0]) \/
   (exists a, a <> 0 /\ result r = 0 /\
      promotion_steps (log r) = [Sched a; Init; Sched 0]) \/
   (exists a b, a <> 0 /\ b <> 0 /\ result r = -1 /\
      promotion_steps (log r) = [Sched a; Init; Sched b; Init])).
Proof.
  unfold turn_into_cobalt_thread, turn_into_cobalt_thread_body.
  run; (split; [reflexivity | split; [reflexivity |]]).
  all: repeat match goal with
       | H : (_ =? _) = true |- _ => apply Z.eqb_eq in H; subst
       | H : (_ =? _) = false |- _ => apply Z.eqb_neq in H
       end.
  all: cbv [result log fst snd].
  all: try (left; split; reflexivity).
  all: try (right; left; eexists;
            refine (conj _ (conj eq_refl eq_refl)); assumption).
  all: right; right; do 2 eexists;
       refine (conj _ (conj _ (conj eq_refl eq_refl))); assumption.
Qed.

Lemma turn_into_cobalt_thread_no_service (s : Service) (k : K) :
  count (is_service s) (log (turn_into_cobalt_thread false k)) = 0%nat.
Proof.
  unfold turn_into_cobalt_thread, turn_into_cobalt_thread_body.
  run; reflexivity.
Qed.

(** [try_or_retry] on an enabled object, written out. *)
Lemma try_or_retry_enabled (func : M Z) (id : handle) (name : string)
    (k : K) :
  try_or_retry func id name true k =
    let '(r1, k1, t1) := func k in
    if EPERM =? r1 then
      let '(p, k2, t2) := turn_into_cobalt_thread false k1 in
      if p =? 0 then
        let '(r2, k3, t3) := func k2 in (r2, k3, t1 ++ t2 ++ t3)
      else (EPERM, k2, t1 ++ t2)
    else (r1, k1, t1).
Proof.
  unfold try_or_retry. cbv [bind pure negb].
  destruct (func k) as [[r1 k1] t1].
  destruct (EPERM =? r1).
  - destruct (turn_into_cobalt_thread false k1) as [[p k2] t2].
    destruct (p =? 0).
    + destruct (func k2) as [[r2 k3] t3]. rewrite app_nil_r. reflexivity.
    + rewrite app_nil_r. reflexivity.
  - rewrite app_nil_r. reflexivity.
Qed.

Lemma try_or_retry_disabled (func : M Z) (id : handle) (name : string)
    (k : K) :
  try_or_retry func id name false k = (0, k, []).
Proof. reflexivity. Qed.

(** ** The retry helper *)

(** C1: on an object that is not enabled the helper returns at once and
    calls nothing, but what it returns is [false] converted to [int],
    that is 0, the value that stands for success: [try_lock] on a
    disabled mutex compares it with 0 and answers [true]. *)
Theorem try_lock_disabled_returns_true :
  (forall (func : M Z) (id : handle) (name : string) (k : K),
      try_or_retry func id name false k = (0, k, [])) /\
  (forall (m : handle) (recurred : bool) (k : K),
      try_lock {| mutex := m; enabled := false |} recurred k
      = (true, k, [])).
Proof. split; reflexivity. Qed.

(** C5: one invocation of the helper on an enabled object calls the
    wrapped service at most twice and invokes
    [turn_into_cobalt_thread] at most once. *)
Theorem try_or_retry_at_most_twice (s : Service) (id : handle)
    (name : string) (k : K) :
  let r := try_or_retry (call (wrap_pthread s)) id name true k in
  (count (is_service s) (log r) <= 2)%nat /\
  (count is_promotion (log r) <= 1)%nat.
Proof.
  cbv zeta. rewrite try_or_retry_enabled. unfold call.
  destruct (kernel (wrap_pthread s) k) as [r1 k1].
  pose proof (turn_into_cobalt_thread_no_service s k1) as none.
  destruct (turn_into_cobalt_thread_cases k1) as (_ & once & _).
  destruct (turn_into_cobalt_thread false k1) as [[p k2] t2].
  cbn [log snd] in none, once.
  destruct (kernel (wrap_pthread s) k2) as [r2 k3].
  destruct (EPERM =? r1), (p =? 0); cbn [log snd];
    rewrite ?count_app, ?none, ?once; unfold count; cbn;
    rewrite ?service_eqb_refl; cbn; split; lia.
Qed.

(** C6: on an enabled object, when the first attempt answers anything
    but [EPERM], the helper does exactly what that one attempt did:
    same value, same state of the kernel, same log, hence no promotion.
    So [try_lock] on a mutex that the kernel reports as held (any
    answer that is neither 0 nor [EPERM]) is [false] after the single
    call of the trylock service. *)
Theorem try_or_retry_first_result_returned :
  (forall (func : M Z) (id : handle) (name : string) (k : K),
      result (func k) <> EPERM ->
      try_or_retry func id name true k = func k) /\
  (forall (this : XenomaiMutex) (recurred : bool) (k : K) (e : Z) (k1 : K),
      enabled this = true ->
      kernel (pthread_mutex_trylock (mutex this)) k = (e, k1) ->
      e <> EPERM -> e <> 0 ->
      try_lock this recurred k
      = (false, k1, [Native (pthread_mutex_trylock (mutex this)) e])).
Proof.
  split.
  - intros func id name k other. rewrite try_or_retry_enabled.
    destruct (func k) as [[r1 k1] t1]. cbn in other.
    destruct (Z.eqb_spec EPERM r1); [congruence | reflexivity].
  - intros this recurred k e k1 on answer other held.
    unfold try_lock. cbv [bind]. rewrite on, try_or_retry_enabled.
    unfold call. rewrite answer.
    destruct (Z.eqb_spec EPERM e); [congruence |].
    cbv [pure]. destruct (Z.eqb_spec 0 e); [congruence | reflexivity].
Qed.

(** C7: on an enabled object, when the first attempt answers [EPERM]
    and the promotion fails, the helper returns [EPERM] in the state
    the promotion left; its log is that of the first attempt followed
    by that of the promotion, so that no service is called more often
    than the first attempt called it. *)
Theorem try_or_retry_promotion_failed (func : M Z) (id : handle)
    (name : string) (k k1 k2 : K) (t1 t2 : list Event) (p : Z) :
  func k = (EPERM, k1, t1) ->
  turn_into_cobalt_thread false k1 = (p, k2, t2) ->
  p <> 0 ->
  try_or_retry func id name true k = (EPERM, k2, t1 ++ t2) /\
  forall s : Service,
    count (is_service s) (log (try_or_retry func id name true k))
    = count (is_service s) t1.
Proof.
  intros first promotion failed.
  assert (run : try_or_retry func id name true k = (EPERM, k2, t1 ++ t2)).
  { rewrite try_or_retry_enabled, first. cbn -[turn_into_cobalt_thread].
    rewrite promotion.
    destruct (Z.eqb_spec p 0); [congruence | reflexivity]. }
  split; [exact run |].
  intros s. rewrite run. cbn [log snd]. rewrite count_app.
  pose proof (turn_into_cobalt_thread_no_service s k1) as none.
  rewrite promotion in none. cbn [log snd] in none. lia.
Qed.

(** ** The promotion of the calling thread *)

(** C4: [turn_into_cobalt_thread()] returns 0 when the scheduler-set
    call answers 0 at once, or answers 0 when it is made again after
    the initialisation of Xenomai; when that second call fails too the
    function returns -1.  The scheduler-set call is made once in the
    first case and twice in the other two, never more. *)
Theorem turn_into_cobalt_thread_two_attempts (k : K) :
  let r := turn_into_cobalt_thread false k in
  (result r = 0 /\ promotion_steps (log r) = [Sched 0]) \/
  (exists a, a <> 0 /\ result r = 0 /\
     promotion_steps (log r) = [Sched a; Init; Sched 0]) \/
  (exists a b, a <> 0 /\ b <> 0 /\ result r = -1 /\
     promotion_steps (log r) = [Sched a; Init; Sched b; Init]).
Proof. exact (proj2 (proj2 (turn_into_cobalt_thread_cases k))). Qed.

(** C9: when both scheduler-set calls of one promotion fail, Xenomai is
    initialised twice, once after each of them. *)
Theorem turn_into_cobalt_thread_initializes_twice (k : K) (a b : Z) :
  let steps := promotion_steps (log (turn_into_cobalt_thread false k)) in
  sched_answers steps = [a; b] -> a <> 0 -> b <> 0 ->
  steps = [Sched a; Init; Sched b; Init] /\ initializations steps = 2%nat.
Proof.
  cbv zeta. intros answers first second.
  destruct (turn_into_cobalt_thread_cases k) as (_ & _ & cases).
  destruct cases as [(_ & steps) | [(x & _ & _ & steps) | (x & y & _ & _ & _ & steps)]];
    rewrite steps in answers |- *; cbn in answers.
  - discriminate.
  - congruence.
  - injection answers as -> ->. split; reflexivity.
Qed.

(** ** Construction *)

(** What the constructor of the mutex does, by the answers of the init
    calls. *)
Lemma XenomaiMutex_ctor_enabled (this : handle) (k : K) :
  let first := kernel (pthread_mutex_init this) k in
  let again :=
    kernel (pthread_mutex_init this)
      (snd (kernel (xenomai_init 2 [EmptyString; EmptyString; EmptyString])
              (snd first))) in
  enabled (result (XenomaiMutex_ctor this k))
  = if EPERM =? fst first then fst again =? 0 else true.
Proof.
  cbv zeta. unfold XenomaiMutex_ctor. run; try reflexivity.
  all: cbn [fst snd] in *; congruence.
Qed.

(** The constructor of the mutex does enable the object when the init
    call answers [EPERM] first and 0 when it is made again. *)
Lemma XenomaiMutex_ctor_retry (this : handle) (k k1 k2 k3 : K) :
  kernel (pthread_mutex_init this) k = (EPERM, k1) ->
  kernel (xenomai_init 2 [EmptyString; EmptyString; EmptyString]) k1
  = (tt, k2) ->
  kernel (pthread_mutex_init this) k2 = (0, k3) ->
  result (XenomaiMutex_ctor this k) = {| mutex := this; enabled := true |}.
Proof.
  intros first init again. unfold XenomaiMutex_ctor.
  cbv [bind call pure initialize_xenomai]. rewrite first. cbn.
  rewrite init, again. reflexivity.
Qed.

(** The constructor of the condition variable leaves the object
    disabled when the init call fails with anything but [EPERM]. *)
Lemma XenomaiConditionVariable_ctor_failed (this : handle) (k k1 : K)
    (e : Z) :
  kernel (pthread_cond_init this) k = (e, k1) ->
  e <> 0 -> e <> EPERM ->
  XenomaiConditionVariable_ctor this k
  = ({| cond := this; cv_enabled := false |}, k1,
     [Native (pthread_cond_init this) e]).
Proof.
  intros first failed other. unfold XenomaiConditionVariable_ctor.
  cbv [bind call pure]. rewrite first.
  destruct (Z.eqb_spec e 0); [congruence |].
  destruct (Z.eqb_spec EPERM e); [congruence | reflexivity].
Qed.

(** C2: when the first init of the condition variable answers [EPERM],
    Xenomai is initialised and the init is made once more; but when
    that second init answers 0 the constructor returns without setting
    the flag: the object stays disabled, where the constructor of the
    mutex enables it ([XenomaiMutex_ctor_retry]). *)
Theorem XenomaiConditionVariable_ctor_retry_stays_disabled
    (this : handle) (k k1 k2 k3 : K) :
  kernel (pthread_cond_init this) k = (EPERM, k1) ->
  kernel (xenomai_init 2 [EmptyString; EmptyString; EmptyString]) k1
  = (tt, k2) ->
  kernel (pthread_cond_init this) k2 = (0, k3) ->
  XenomaiConditionVariable_ctor this k
  = ({| cond := this; cv_enabled := false |}, k3,
     [Native (pthread_cond_init this) EPERM;
      Native (xenomai_init 2 [EmptyString; EmptyString; EmptyString]) tt;
      Native (pthread_cond_init this) 0]).
Proof.
  intros first init again. unfold XenomaiConditionVariable_ctor.
  cbv [bind call pure initialize_xenomai]. rewrite first. cbn.
  rewrite init, again. reflexivity.
Qed.

(** C3: when the first init of the mutex fails with an error other
    than [EPERM], the constructor makes no second attempt and sets the
    flag all the same: the object is enabled although its native mutex
    was never initialised.  The constructor of the condition variable
    leaves the flag alone there
    ([XenomaiConditionVariable_ctor_failed]). *)
Theorem XenomaiMutex_ctor_enabled_after_failed_init
    (this : handle) (k k1 : K) (e : Z) :
  kernel (pthread_mutex_init this) k = (e, k1) ->
  e <> 0 -> e <> EPERM ->
  XenomaiMutex_ctor this k
  = ({| mutex := this; enabled := true |}, k1,
     [Native (pthread_mutex_init this) e]).
Proof.
  intros first failed other. unfold XenomaiMutex_ctor.
  cbv [bind call pure]. rewrite first.
  destruct (Z.eqb_spec EPERM e); [congruence | reflexivity].
Qed.

(** ** The condition variable *)

(** [notify_all] on an enabled condition variable starts with the
    broadcast and never calls the destroy service. *)
Lemma notify_all_enabled (this : XenomaiConditionVariable) (k : K) :
  cv_enabled this = true ->
  exists (b : Z) (t : list Event),
    log (notify_all this false k)
    = Native (pthread_cond_broadcast (cond this)) b :: t /\
    count (is_service (cond_destroy (cond this)))
      (log (notify_all this false k)) = 0%nat.
Proof.
  intros flag. unfold notify_all. rewrite flag. cbv [bind].
  rewrite try_or_retry_enabled. unfold call.
  destruct (kernel (pthread_cond_broadcast (cond this)) k) as [b k1].
  pose proof
    (turn_into_cobalt_thread_no_service (cond_destroy (cond this)) k1)
    as none.
  destruct (turn_into_cobalt_thread false k1) as [[p k2] t2].
  cbn [log snd] in none.
  destruct (kernel (pthread_cond_broadcast (cond this)) k2) as [b2 k3].
  destruct (EPERM =? b), (p =? 0); cbn [log snd pure app];
    do 2 eexists; (split; [reflexivity |]);
    change (Native (pthread_cond_broadcast (cond this)) b :: ?l)
      with ([Native (pthread_cond_broadcast (cond this)) b] ++ l);
    rewrite ?count_app, ?none; reflexivity.
Qed.

(** The destructor of an enabled condition variable is [notify_all()]
    followed by the destroy service. *)
Lemma XenomaiConditionVariable_dtor_enabled
    (this : XenomaiConditionVariable) (k : K) :
  cv_enabled this = true ->
  XenomaiConditionVariable_dtor this k =
    let '(_, k1, t1) := notify_all this false k in
    let '(d, k2) := kernel (pthread_cond_destroy (cond this)) k1 in
    (tt, k2, t1 ++ [Native (pthread_cond_destroy (cond this)) d]).
Proof.
  intros flag. unfold XenomaiConditionVariable_dtor. rewrite flag.
  cbv [bind]. destruct (notify_all this false k) as [[u k1] t1].
  unfold call.
  destruct (kernel (pthread_cond_destroy (cond this)) k1) as [d k2].
  reflexivity.
Qed.

(** C8: the destructor of an enabled condition variable runs
    [notify_all()], which starts with the broadcast on the native
    condition variable and never destroys it, and only then calls the
    destroy service, the last thing it does; the destructor of a
    disabled one calls nothing. *)
Theorem XenomaiConditionVariable_dtor_broadcasts_first
    (this : XenomaiConditionVariable) (k : K) :
  (cv_enabled this = true ->
   exists (b : Z) (t : list Event) (d : Z),
     log (notify_all this false k)
     = Native (pthread_cond_broadcast (cond this)) b :: t /\
     count (is_service (cond_destroy (cond this)))
       (log (notify_all this false k)) = 0%nat /\
     log (XenomaiConditionVariable_dtor this k)
     = log (notify_all this false k)
       ++ [Native (pthread_cond_destroy (cond this)) d]) /\
  (cv_enabled this = false ->
   XenomaiConditionVariable_dtor this k = (tt, k, [])).
Proof.
  split; intros flag.
  - destruct (notify_all_enabled this k flag) as (b & t & starts & none).
    rewrite (XenomaiConditionVariable_dtor_enabled this k flag).
    destruct (notify_all this false k) as [[u k1] t1].
    destruct (kernel (pthread_cond_destroy (cond this)) k1) as [d k2].
    exists b, t, d. repeat split; assumption.
  - unfold XenomaiConditionVariable_dtor. rewrite flag. reflexivity.
Qed.

(** C10: [wait] on a disabled condition variable returns at once: no
    call is made, so neither the native wait nor anything else that is
    given the handle of the mutex of [lck], and the kernel is in the
    state it was in; whoever held that mutex holds it still. *)
Theorem wait_disabled_calls_nothing (this : XenomaiConditionVariable)
    (lck : unique_lock) (recurred : bool) (k : K) :
  cv_enabled this = false ->
  wait this lck recurred k = (tt, k, []).
Proof. intros flag. unfold wait. rewrite flag. reflexivity. Qed.

(** ** More about construction *)

(** X1: every way the constructor of the mutex can go.  The native init
    is called once when it does not answer [EPERM] (the object is then
    enabled, whatever the answer was) and twice otherwise, with the
    initialisation of Xenomai in between; the object is left disabled
    only when the second init fails, and exactly then the diagnostic is
    printed, with the answer of that second init. *)
Theorem XenomaiMutex_ctor_outcomes (this : handle) (k : K) :
  let r := XenomaiMutex_ctor this k in
  mutex (result r) = this /\
  ((exists e, e <> EPERM /\ enabled (result r) = true /\
      log r = [Native (pthread_mutex_init this) e]) \/
   (enabled (result r) = true /\
      log r = [Native (pthread_mutex_init this) EPERM;
               Native (xenomai_init 2 [EmptyString; EmptyString; EmptyString]) tt;
               Native (pthread_mutex_init this) 0]) \/
   (exists e printed, e <> 0 /\ enabled (result r) = false /\
      log r = [Native (pthread_mutex_init this) EPERM;
               Native (xenomai_init 2 [EmptyString; EmptyString; EmptyString]) tt;
               Native (pthread_mutex_init this) e;
               Native (fprintf_stderr
                 "Error: unable to initialize mutex : (%d) %s\n" [e])
                 printed])).
Proof.
  unfold XenomaiMutex_ctor. run; units; signs; (split; [reflexivity |]).
  - right. left. split; reflexivity.
  - right. right. do 2 eexists.
    refine (conj _ (conj eq_refl eq_refl)). assumption.
  - left. eexists. refine (conj _ (conj eq_refl eq_refl)).
    intros same. apply T. symmetry. exact same.
Qed.

(** X2: every way the constructor of the condition variable can go.
    The object is enabled exactly when the first init answers 0.  When
    it answers [EPERM], Xenomai is initialised and the init is made a
    second time, but the object stays disabled whatever the second
    answer is; the diagnostic is printed only when the second init
    fails, and not when the first fails with another error. *)
Theorem XenomaiConditionVariable_ctor_outcomes (this : handle) (k : K) :
  let r := XenomaiConditionVariable_ctor this k in
  cond (result r) = this /\
  ((cv_enabled (result r) = true /\
      log r = [Native (pthread_cond_init this) 0]) \/
   (exists e, e <> 0 /\ e <> EPERM /\ cv_enabled (result r) = false /\
      log r = [Native (pthread_cond_init this) e]) \/
   (cv_enabled (result r) = false /\
      log r = [Native (pthread_cond_init this) EPERM;
               Native (xenomai_init 2 [EmptyString; EmptyString; EmptyString]) tt;
               Native (pthread_cond_init this) 0]) \/
   (exists e printed, e <> 0 /\ cv_enabled (result r) = false /\
      log r = [Native (pthread_cond_init this) EPERM;
               Native (xenomai_init 2 [EmptyString; EmptyString; EmptyString]) tt;
               Native (pthread_cond_init this) e;
               Native (fprintf_stderr
                 "Error: unable to create condition variable : (%d) %s\n" [e])
                 printed])).
Proof.
  unfold XenomaiConditionVariable_ctor.
  run; units; signs; (split; [reflexivity |]).
  - left. split; reflexivity.
  - right. right. left. split; reflexivity.
  - right. right. right. do 2 eexists.
    refine (conj _ (conj eq_refl eq_refl)). assumption.
  - right. left. eexists. refine (conj _ (conj _ (conj eq_refl eq_refl))).
    + assumption.
    + intros same. apply T0. symmetry. exact same.
Qed.

(** ** More about the promotion *)


(** The log of a promotion is not empty and holds no call of a Cobalt
    pthread service. *)
Lemma turn_into_cobalt_thread_log_nonempty (k : K) :
  log (turn_into_cobalt_thread false k) <> [].
Proof.
  unfold turn_into_cobalt_thread, turn_into_cobalt_thread_body.
  run; discriminate.
Qed.

Lemma turn_into_cobalt_thread_no_pthread (k : K) :
  forallb (fun e => negb (is_pthread e))
    (log (turn_into_cobalt_thread false k)) = true.
Proof.
  unfold turn_into_cobalt_thread, turn_into_cobalt_thread_body.
  run; reflexivity.
Qed.

(** ** More about the retry helper *)

(** X4: on an enabled object, when the first attempt answers [EPERM]
    and the promotion succeeds, the helper makes one more attempt and
    returns what that attempt returns, be it [EPERM] again; the log is
    that of the first attempt, of the promotion and of the second
    attempt, in this order, and nothing follows. *)
Theorem try_or_retry_promotion_succeeded (func : M Z) (id : handle)
    (name : string) (k k1 k2 k3 : K) (t1 t2 t3 : list Event) (r : Z) :
  func k = (EPERM, k1, t1) ->
  turn_into_cobalt_thread false k1 = (0, k2, t2) ->
  func k2 = (r, k3, t3) ->
  try_or_retry func id name true k = (r, k3, t1 ++ t2 ++ t3).
Proof.
  intros first promotion second.
  rewrite try_or_retry_enabled, first. cbn -[turn_into_cobalt_thread].
  rewrite promotion. cbn. rewrite second. reflexivity.
Qed.


(** ** More about the operations *)

Lemma last_event_snoc (t : list Event) (e : Event) :
  last_event (t ++ [e]) = Some e.
Proof. unfold last_event. rewrite rev_app_distr. reflexivity. Qed.

Lemma last_event_app (t u : list Event) :
  u <> [] -> last_event (t ++ u) = last_event u.
Proof.
  intros some. unfold last_event. rewrite rev_app_distr.
  destruct (rev u) as [| e u'] eqn:reversed; [| reflexivity].
  apply (f_equal (@rev Event)) in reversed. rewrite rev_involutive in reversed.
  contradiction.
Qed.

Lemma last_event_In (t : list Event) (e : Event) :
  last_event t = Some e -> In e t.
Proof.
  unfold last_event. intros last. apply in_rev.
  destruct (rev t); [discriminate |]. injection last as ->. left. reflexivity.
Qed.

Lemma service_answer_not_pthread (s : Service) (e : Event) :
  is_pthread e = false -> service_answer s e = None.
Proof. destruct e as [[] r |]; cbn; congruence. Qed.

(** X6: [try_lock] on an enabled mutex answers [true] exactly when the
    last thing it did was a call of the trylock service on the handle
    of this mutex that answered 0.  In particular, [true] is never
    answered after a promotion that failed, nor for an answer of the
    first attempt that a second attempt has replaced. *)
Theorem try_lock_true_iff (this : XenomaiMutex) (recurred : bool) (k : K) :
  enabled this = true ->
  result (try_lock this recurred k) = true <->
  exists e,
    last_event (log (try_lock this recurred k)) = Some e /\
    service_answer (mutex_trylock (mutex this)) e = Some 0.
Proof.
  intros on. unfold try_lock. cbv [bind]. rewrite on, try_or_retry_enabled.
  unfold call.
  destruct (kernel (pthread_mutex_trylock (mutex this)) k) as [r1 k1].
  pose proof (turn_into_cobalt_thread_log_nonempty k1) as some.
  pose proof (turn_into_cobalt_thread_no_pthread k1) as none.
  destruct (turn_into_cobalt_thread false k1) as [[p k2] t2].
  cbn [log snd] in some, none.
  destruct (kernel (pthread_mutex_trylock (mutex this)) k2) as [r2 k3].
  destruct (Z.eqb_spec EPERM r1) as [wrong | other];
    [destruct (Z.eqb_spec p 0) as [promoted | failed] |];
    cbn [result log fst snd pure]; rewrite app_nil_r.
  - rewrite !app_assoc, last_event_snoc. split.
    + intros yes. apply Z.eqb_eq in yes. subst r2. eexists. split.
      * reflexivity.
      * cbn. rewrite Z.eqb_refl. reflexivity.
    + intros (e & last & zero). injection last as <-. cbn in zero.
      rewrite Z.eqb_refl in zero. injection zero as ->. reflexivity.
  - rewrite (last_event_app _ t2 some). split.
    + discriminate.
    + intros (e & last & zero). apply last_event_In in last.
      rewrite forallb_forall in none. specialize (none e last).
      rewrite (service_answer_not_pthread _ e) in zero; [discriminate |].
      destruct (is_pthread e); [discriminate | reflexivity].
  - change [Native (pthread_mutex_trylock (mutex this)) r1]
      with ([] ++ [Native (pthread_mutex_trylock (mutex this)) r1]).
    rewrite last_event_snoc. split.
    + intros yes. apply Z.eqb_eq in yes. subst r1. eexists. split.
      * reflexivity.
      * cbn. rewrite Z.eqb_refl. reflexivity.
    + intros (e & last & zero). injection last as <-. cbn in zero.
      rewrite Z.eqb_refl in zero. injection zero as ->. reflexivity.
Qed.

(** X7: a client that only uses disabled objects, however often and in
    whatever order, makes no library call and leaves the kernel as it
    was: none of its locks, unlocks, waits or notifications happens. *)
Theorem perform_all_disabled (ops : list Operation) (k : K) :
  forallb (fun o => negb (target_enabled o)) ops = true ->
  perform_all ops k = (tt, k, []).
Proof.
  induction ops as [| o ops' inert]; intros off; [reflexivity |].
  cbn [forallb] in off. apply andb_true_iff in off as [flag rest].
  apply negb_true_iff in flag. cbn [perform_all]. cbv [bind].
  assert (nothing : perform o k = (tt, k, [])).
  { destruct o; cbn [target_enabled] in flag; cbn [perform];
      unfold lock, try_lock, unlock, wait, notify_one, notify_all;
      rewrite flag; reflexivity. }
  rewrite nothing, (inert rest). reflexivity.
Qed.

(** ** Lifetimes *)

(** X8: a mutex that is created and destroyed.  The destroy service is
    called once, unless the init answered [EPERM] and then failed again:
    so it is also called on a mutex whose only init failed with an
    error other than [EPERM]. *)
Theorem XenomaiMutex_lifetime_destroy (this : handle) (k : K) :
  let first := kernel (pthread_mutex_init this) k in
  let again :=
    kernel (pthread_mutex_init this)
      (snd (kernel (xenomai_init 2 [EmptyString; EmptyString; EmptyString])
              (snd first))) in
  count (is_service (mutex_destroy this))
    (log (XenomaiMutex_lifetime this k))
  = if EPERM =? fst first then (if fst again =? 0 then 1%nat else 0%nat)
    else 1%nat.
Proof.
  cbv zeta.
  unfold XenomaiMutex_lifetime, XenomaiMutex_ctor, XenomaiMutex_dtor.
  run; try reflexivity.
  all: cbn [fst snd] in *; rewrite ?Z.eqb_refl in *; congruence.
Qed.

(** What the constructor of the condition variable returns, by the
    answer of the first init. *)
Lemma XenomaiConditionVariable_ctor_result (this : handle) (k : K) :
  result (XenomaiConditionVariable_ctor this k)
  = {| cond := this;
       cv_enabled := fst (kernel (pthread_cond_init this) k) =? 0 |} /\
  count (is_service (cond_destroy this))
    (log (XenomaiConditionVariable_ctor this k)) = 0%nat.
Proof.
  unfold XenomaiConditionVariable_ctor. run; split; reflexivity.
Qed.

(** X9: a condition variable that is created and destroyed.  The
    destroy service is called once when the first init answered 0 and
    not at all otherwise: a native condition variable whose init failed
    is never destroyed, and after the answer [EPERM] neither is one
    that the second init has initialised. *)
Theorem XenomaiConditionVariable_lifetime_destroy (this : handle) (k : K) :
  count (is_service (cond_destroy this))
    (log (XenomaiConditionVariable_lifetime this k))
  = if fst (kernel (pthread_cond_init this) k) =? 0 then 1%nat else 0%nat.
Proof.
  unfold XenomaiConditionVariable_lifetime. cbv [bind].
  destruct (XenomaiConditionVariable_ctor_result this k) as [made quiet].
  destruct (XenomaiConditionVariable_ctor this k) as [[c k1] t1].
  cbn [result log fst snd] in made, quiet. subst c.
  destruct (fst (kernel (pthread_cond_init this) k) =? 0).
  - set (c := {| cond := this; cv_enabled := true |}).
    destruct (notify_all_enabled c k1 eq_refl) as (b & t & _ & none).
    rewrite (XenomaiConditionVariable_dtor_enabled c k1 eq_refl).
    destruct (notify_all c false k1) as [[u k2] t2].
    subst c. cbn [log snd cond] in none |- *.
    destruct (kernel (pthread_cond_destroy this) k2) as [d k3].
    cbn [log snd]. rewrite !count_app, quiet, none.
    unfold count. cbn. rewrite Z.eqb_refl. reflexivity.
  - unfold XenomaiConditionVariable_dtor. cbn [cv_enabled pure log snd].
    rewrite app_nil_r. exact quiet.
Qed.

(** ** Bounded work *)




End XenomaiLock.

Arguments pure {K A} a.
Arguments result {K A} r.
Arguments log {K A} r.

(** ** The theorems at work on the scripted kernel *)

(** [try_lock] on an enabled mutex that the kernel reports as busy
    ([EBUSY] is 16). *)
Lemma try_or_retry_first_result_returned_witness :
  try_or_retry _ scripted (call _ scripted (pthread_mutex_trylock 5))
    5 "try_lock" true [16]
  = call _ scripted (pthread_mutex_trylock 5) [16]
  /\ try_lock _ scripted {| mutex := 5; enabled := true |} false [16]
     = (false, [], [Native (pthread_mutex_trylock 5) 16]).
Proof.
  split.
  - apply (proj1 (try_or_retry_first_result_returned (list Z) scripted)).
    vm_compute. discriminate.
  - apply (proj2 (try_or_retry_first_result_returned (list Z) scripted)
             {| mutex := 5; enabled := true |} false [16] 16 []).
    + reflexivity.
    + reflexivity.
    + vm_compute. discriminate.
    + discriminate.
Defined.

(** [lock] answers [EPERM] and the thread cannot be promoted. *)
Lemma try_or_retry_promotion_failed_witness :
  let r := try_or_retry _ scripted (call _ scripted (pthread_mutex_lock 5))
             5 "lock" true (1 :: failing_promotion) in
  result r = EPERM /\ count (is_service (mutex_lock 5)) (log r) = 1%nat.
Proof.
  cbv zeta.
  edestruct (try_or_retry_promotion_failed (list Z) scripted
               (call _ scripted (pthread_mutex_lock 5)) 5 "lock"
               (1 :: failing_promotion)) as [run same].
  - vm_compute. reflexivity.
  - vm_compute. reflexivity.
  - discriminate.
  - split.
    + rewrite run. reflexivity.
    + rewrite same. reflexivity.
Defined.

Lemma turn_into_cobalt_thread_initializes_twice_witness :
  let steps :=
    promotion_steps
      (log (turn_into_cobalt_thread _ scripted false failing_promotion)) in
  steps = [Sched 1; Init; Sched 1; Init] /\ initializations steps = 2%nat.
Proof.
  apply (turn_into_cobalt_thread_initializes_twice (list Z) scripted
           failing_promotion 1 1).
  - reflexivity.
  - discriminate.
  - discriminate.
Defined.

(** The init of the condition variable answers [EPERM], then 0. *)
Lemma XenomaiConditionVariable_ctor_retry_stays_disabled_witness :
  XenomaiConditionVariable_ctor _ scripted 100 [1; 0]
  = ({| cond := 100; cv_enabled := false |}, [],
     [Native (pthread_cond_init 100) EPERM;
      Native (xenomai_init 2 [EmptyString; EmptyString; EmptyString]) tt;
      Native (pthread_cond_init 100) 0]).
Proof.
  apply (XenomaiConditionVariable_ctor_retry_stays_disabled (list Z) scripted
           100 [1; 0] [0] [0] []); reflexivity.
Defined.

(** The init of the mutex answers [ENOMEM] (12). *)
Lemma XenomaiMutex_ctor_enabled_after_failed_init_witness :
  XenomaiMutex_ctor _ scripted 100 [12]
  = ({| mutex := 100; enabled := true |}, [],
     [Native (pthread_mutex_init 100) 12]).
Proof.
  apply (XenomaiMutex_ctor_enabled_after_failed_init (list Z) scripted
           100 [12] [] 12).
  - reflexivity.
  - discriminate.
  - vm_compute. discriminate.
Defined.

Lemma XenomaiConditionVariable_dtor_broadcasts_first_witness :
  (exists (b : Z) (t : list Event) (d : Z),
      log (notify_all _ scripted {| cond := 9; cv_enabled := true |} false
             [0; 0])
      = Native (pthread_cond_broadcast 9) b :: t /\
      count (is_service (cond_destroy 9))
        (log (notify_all _ scripted {| cond := 9; cv_enabled := true |} false
                [0; 0])) = 0%nat /\
      log (XenomaiConditionVariable_dtor _ scripted
             {| cond := 9; cv_enabled := true |} [0; 0])
      = log (notify_all _ scripted {| cond := 9; cv_enabled := true |} false
               [0; 0])
        ++ [Native (pthread_cond_destroy 9) d]) /\
  XenomaiConditionVariable_dtor _ scripted
    {| cond := 9; cv_enabled := false |} [0; 0]
  = (tt, [0; 0], []).
Proof.
  split.
  - apply (proj1 (XenomaiConditionVariable_dtor_broadcasts_first
                    (list Z) scripted {| cond := 9; cv_enabled := true |}
                    [0; 0])).
    reflexivity.
  - apply (proj2 (XenomaiConditionVariable_dtor_broadcasts_first
                    (list Z) scripted {| cond := 9; cv_enabled := false |}
                    [0; 0])).
    reflexivity.
Defined.

Lemma wait_disabled_calls_nothing_witness :
  wait _ scripted {| cond := 9; cv_enabled := false |}
    {| lck_mutex := {| mutex := 5; enabled := true |} |} false [0; 0]
  = (tt, [0; 0], []).
Proof.
  apply (wait_disabled_calls_nothing (list Z) scripted). reflexivity.
Defined.

(** The answers a promotion consumes when the scheduler-set call
    succeeds at once. *)
Lemma try_or_retry_promotion_succeeded_witness :
  try_or_retry _ scripted (call _ scripted (pthread_mutex_lock 5))
    5 "lock" true [1; 0; 7; 0; 42; 0; 0]
  = (0, [],
     [Native (pthread_mutex_lock 5) 1]
     ++ attempt_events false
          {| q_mode := 0; q_thread := 7; q_status := 0; q_policy := 0;
             q_param := 0; q_tid := 42 |} 0
     ++ [Native (pthread_mutex_lock 5) 0]).
Proof.
  apply (try_or_retry_promotion_succeeded (list Z) scripted
           (call _ scripted (pthread_mutex_lock 5)) 5 "lock"
           [1; 0; 7; 0; 42; 0; 0] [0; 7; 0; 42; 0; 0] [0] []);
    reflexivity.
Defined.

Lemma try_lock_true_iff_witness :
  result (try_lock _ scripted {| mutex := 5; enabled := true |} false [0])
  = true <->
  exists e,
    last_event
      (log (try_lock _ scripted {| mutex := 5; enabled := true |} false [0]))
    = Some e /\
    service_answer (mutex_trylock 5) e = Some 0.
Proof.
  apply (try_lock_true_iff (list Z) scripted
           {| mutex := 5; enabled := true |} false [0]).
  reflexivity.
Defined.

Lemma perform_all_disabled_witness :
  perform_all _ scripted
    [use_lock {| mutex := 5; enabled := false |};
     use_wait {| cond := 9; cv_enabled := false |}
       {| lck_mutex := {| mutex := 5; enabled := false |} |};
     use_notify_all {| cond := 9; cv_enabled := false |};
     use_unlock {| mutex := 5; enabled := false |}]
    [3; 4]
  = (tt, [3; 4], []).
Proof.
  apply (perform_all_disabled (list Z) scripted). reflexivity.
Defined.
